(** * go-micro-api: the command-line bootstrap of the API gateway

    A shallow embedding of package [cmd] (cmd.go, options.go and the CORS
    middleware) and the properties of its three entry points:
    - [CorsMiddleware], the HTTP wrapper placed in front of the handler;
    - [Before], which reads the flags, selects the router, resolver and
      handler factories by name and assembles the server;
    - [Action], which starts the server, waits for SIGINT or SIGTERM and
      stops it.

    The go-micro packages the file imports (routers, resolvers, handlers, the
    HTTP server) are outside the repository: they are taken as an interface,
    the class [GoMicro], and every theorem holds for every implementation of
    it.  Effects are explicit: a function of the process is a state
    transformer over [Process], which carries the trace of the external calls
    made so far and the signals the process is still to receive. *)

From Stdlib Require Import ZArith Ascii String.
From stdpp Require Import base tactics option list strings gmap.

Local Open Scope string_scope.
Local Open Scope list_scope.

(** ** net/http: headers, requests and response writers *)

(** [http.Header] is [map[string][]string]. *)
Abbreviation http_Header := (gmap string (list string)).

(** The bytes net/textproto accepts in a header field name (RFC 7230
    token characters). *)
Definition validHeaderFieldByte (c : ascii) : bool :=
  let n := N_of_ascii c in
  ((48 <=? n) && (n <=? 57))%N || ((65 <=? n) && (n <=? 90))%N
  || ((97 <=? n) && (n <=? 122))%N
  || bool_decide (c ∈ ["!"; "#"; "$"; "%"; "&"; "'"; "*"; "+"; "-"; ".";
                        "^"; "_"; "`"; "|"; "~"]%char).

(** The re-casing loop of [textproto.canonicalMIMEHeaderKey]: upper case
    for the first letter and for a letter after a dash, lower case
    elsewhere. *)
Fixpoint canonicalCase (upper : bool) (s : string) : string :=
  match s with
  | EmptyString => EmptyString
  | String c rest =>
      let n := N_of_ascii c in
      let c' :=
        if upper && (97 <=? n)%N && (n <=? 122)%N then ascii_of_N (n - 32)
        else if negb upper && (65 <=? n)%N && (n <=? 90)%N then ascii_of_N (n + 32)
        else c in
      String c' (canonicalCase (Ascii.eqb c' "-") rest)
  end.

(** [textproto.CanonicalMIMEHeaderKey]: a key holding a byte that is not a
    token character (a space included) is returned unchanged. *)
Definition CanonicalMIMEHeaderKey (s : string) : string :=
  if forallb validHeaderFieldByte (list_ascii_of_string s)
  then canonicalCase true s else s.

(** [h.Set(key, value)]: the entry of the canonical key is replaced by the
    single value. *)
Definition Header_Set (h : http_Header) (key value : string) : http_Header :=
  <[CanonicalMIMEHeaderKey key := [value]]> h.

Record http_Request := {
  Method : string;
  URL : string;
  ReqHeader : http_Header;
  ReqBody : string
}.

(** The state behind an [http.ResponseWriter]: the header map returned by
    [Header()], whether the status line has been written, the status code
    and the body written so far. *)
Record ResponseWriter := {
  Header : http_Header;
  wroteHeader : bool;
  Code : Z;
  Body : string
}.

Definition http_MethodOptions : string := "OPTIONS".
Definition http_StatusOK : Z := 200%Z.

(** [writer.Header().Set(key, value)]. *)
Definition writer_Header_Set (w : ResponseWriter) (key value : string) : ResponseWriter :=
  {| Header := Header_Set (Header w) key value;
     wroteHeader := wroteHeader w; Code := Code w; Body := Body w |}.

(** [writer.WriteHeader(code)]: the first call fixes the status, a later
    call is superfluous and changes nothing. *)
Definition WriteHeader (w : ResponseWriter) (code : Z) : ResponseWriter :=
  if wroteHeader w then w
  else {| Header := Header w; wroteHeader := true; Code := code; Body := Body w |}.

(** An [http.Handler], by its [ServeHTTP]: it acts on the writer it is given
    and on the rest of the world [W] it can reach (back ends, logs). *)
Definition http_Handler (W : Type) : Type :=
  ResponseWriter -> http_Request -> W -> ResponseWriter * W.

(** ** The CORS middleware *)

Definition CorsMiddleware {W : Type} (handler : http_Handler W) : http_Handler W :=
  fun writer request world =>
    let writer := writer_Header_Set writer "Access-Control-Allow-Origin" "*" in
    let writer := writer_Header_Set writer "Access-Control-Allow-Headers"
      "Content-Type,AccessToken,X-CSRF-Token,Authorization,Token,X-Token,X-User-Id" in
    let writer := writer_Header_Set writer "Access-Control-Allow-Methods"
      "POST,GET,OPTIONS,DELETE,PUT" in
    let writer := writer_Header_Set writer "Access-Control-Expose-Headers"
      "Content-Length,Access-Control-Allow-Origin,Access-Control-Allow-Headers,Content-Type" in
    let writer := writer_Header_Set writer "Access-Control-Allow-Credentials" "true" in
    if String.eqb (Method request) http_MethodOptions then
      (WriteHeader writer http_StatusOK, world)
    else
      handler writer request world.

(** A handler stub that records invocation: it appends the request it is
    called with to a log kept beside the world, then behaves as [handler]. *)
Definition recording {W : Type} (handler : http_Handler W)
  : http_Handler (W * list http_Request) :=
  fun writer request '(world, calls) =>
    let '(writer', world') := handler writer request world in
    (writer', (world', calls ++ [request])).

(** The five response headers of the middleware, as (name, value) pairs. *)
Definition cors_headers : list (string * string) :=
  [("Access-Control-Allow-Origin", "*");
   ("Access-Control-Allow-Headers",
    "Content-Type,AccessToken,X-CSRF-Token,Authorization,Token,X-Token,X-User-Id");
   ("Access-Control-Allow-Methods", "POST,GET,OPTIONS,DELETE,PUT");
   ("Access-Control-Expose-Headers",
    "Content-Length,Access-Control-Allow-Origin,Access-Control-Allow-Headers,Content-Type");
   ("Access-Control-Allow-Credentials", "true")].

(** A response carries the CORS headers when each of the five names maps to
    exactly its fixed value. *)
Definition carries_cors (h : http_Header) : Prop :=
  Forall (fun kv => h !! kv.1 = Some [kv.2]) cors_headers.

(** ** The imported go-micro packages *)

(** Go's [error], identified with its message; [None] is [nil]. *)
Definition error : Type := string.

(** [resolver.StaticNamespace(ns)]: the namespace function that answers [ns]
    for every request. *)
Definition resolver_StaticNamespace (ns : string) : http_Request -> string :=
  fun _ => ns.

(** The functional options the file builds.  A [resolver.Option] is either
    [resolver.WithNamespace(fn)] or [resolver.WithHandler(name)]; the one
    [router.Option] is [router.WithResolver(r)] and the one [handler.Option]
    is [handler.WithRouter(r)]. *)
Inductive resolver_Option : Type :=
| resolver_WithNamespace (n : http_Request -> string)
| resolver_WithHandler (h : string).

Inductive router_Option (Resolver : Type) : Type :=
| router_WithResolver (r : Resolver).

Inductive handler_Option (Router : Type) : Type :=
| handler_WithRouter (r : Router).

Arguments router_WithResolver {Resolver} r.
Arguments handler_WithRouter {Router} r.

(** What package [cmd] imports from go-micro: the three strategy interfaces
    with their constructors, and the HTTP server.  [World] is what a handler
    can reach while it serves a request.  A server method takes the state of
    the server and returns its result with the new state. *)
Class GoMicro := {
  World : Type;
  resolver_Resolver : Type;
  router_Router : Type;
  handler_Handler : Type;
  server_Server : Type;
  (* handler.Handler embeds http.Handler *)
  Handler_ServeHTTP : handler_Handler -> http_Handler World;
  registry_NewRouter : list (router_Option resolver_Resolver) -> router_Router;
  static_NewRouter : list (router_Option resolver_Resolver) -> router_Router;
  grpc_NewResolver : list resolver_Option -> resolver_Resolver;
  host_NewResolver : list resolver_Option -> resolver_Resolver;
  path_NewResolver : list resolver_Option -> resolver_Resolver;
  vpath_NewResolver : list resolver_Option -> resolver_Resolver;
  api_NewHandler : list (handler_Option router_Router) -> handler_Handler;
  event_NewHandler : list (handler_Option router_Router) -> handler_Handler;
  http_NewHandler : list (handler_Option router_Router) -> handler_Handler;
  rpc_NewHandler : list (handler_Option router_Router) -> handler_Handler;
  web_NewHandler : list (handler_Option router_Router) -> handler_Handler;
  httpServer_NewServer : string -> server_Server;
  Server_Handle : server_Server -> string -> http_Handler World -> server_Server;
  Server_Start : server_Server -> option error * server_Server;
  Server_Stop : server_Server -> option error * server_Server
}.

(** ** urfave/cli: flags and the parsed context *)

Record cli_StringFlag := {
  flag_Name : string;
  flag_Value : string;
  flag_Usage : string
}.

(** A [cli.Context], by the values of its flag set. *)
Record cli_Context := { flagSet : gmap string string }.

(** [ctx.String(name)]: the value of the flag, the empty string when the
    flag set has no such flag. *)
Definition ctx_String (ctx : cli_Context) (name : string) : string :=
  default "" (flagSet ctx !! name).

(** The fields of [cli.App] that the file sets.  [Before] and [Action] are
    bound to the methods of these names below. *)
Record cli_App := {
  app_Name : string;
  app_Version : string;
  app_Usage : string;
  app_HideVersion : bool;
  app_Flags : list cli_StringFlag
}.

(** ** options.go and the [cmd] struct *)

Record Options `{GoMicro} := {
  Name : string;
  Description : string;
  Version : string;
  Server : option server_Server;   (* *server.Server, nil until Before ran *)
  Routers : gmap string (list (router_Option resolver_Resolver) -> router_Router);
  Resolvers : gmap string (list resolver_Option -> resolver_Resolver);
  Handlers : gmap string (list (handler_Option router_Router) -> handler_Handler)
}.

Record cmd `{GoMicro} := {
  opts : Options;
  app : cli_App
}.

Definition Option `{GoMicro} : Type := Options -> Options.

(** [c.opts.Server = &srv] *)
Definition set_Server `{GoMicro} (c : cmd) (srv : server_Server) : cmd :=
  {| opts := {| Name := Name (opts c); Description := Description (opts c);
                Version := Version (opts c); Server := Some srv;
                Routers := Routers (opts c); Resolvers := Resolvers (opts c);
                Handlers := Handlers (opts c) |};
     app := app c |}.

(** ** The process: signals, the trace of external calls, outcomes *)

(** [syscall.Signal] is an int; the two the file names, with their Linux
    numbers. *)
Definition Signal : Type := Z.
Definition syscall_SIGINT : Signal := 2%Z.
Definition syscall_SIGTERM : Signal := 15%Z.

(** The calls that leave the package, in the order they are made. *)
Inductive Event `{GoMicro} : Type :=
| EvFatalf (msg : string)
| EvNewResolver (o : list resolver_Option) (r : resolver_Resolver)
| EvNewRouter (o : list (router_Option resolver_Resolver)) (r : router_Router)
| EvNewHandler (o : list (handler_Option router_Router)) (h : handler_Handler)
| EvNewServer (address : string) (srv : server_Server)
| EvHandle (pattern : string)
| EvStart (err : option error)
| EvNotify (sigs : list Signal)
| EvRecv (sig : Signal)
| EvStop (err : option error).

(** The state of the process around the package: the calls made so far, the
    signals relayed to the [quit] channel (none before [signal.Notify]), and
    the signals the process will be sent from now on, in order. *)
Record Process `{GoMicro} := {
  trace : list Event;
  notified : list Signal;
  signals : list Signal
}.

(** How a call ends: it returns; the process exits ([os.Exit]); a nil
    pointer is dereferenced; or it waits on a channel for ever. *)
Inductive Outcome (A : Type) : Type :=
| Return (a : A)
| Exit (code : Z)
| Panic (msg : string)
| Blocked.

Arguments Return {A} a.
Arguments Exit {A} code.
Arguments Panic {A} msg.
Arguments Blocked {A}.

Definition Proc `{GoMicro} (A : Type) : Type := Process -> Outcome A * Process.

#[global] Instance Proc_ret `{GoMicro} : MRet Proc :=
  fun A a p => (Return a, p).

#[global] Instance Proc_bind `{GoMicro} : MBind Proc :=
  fun A B k m p =>
    match m p with
    | (Return a, p') => k a p'
    | (Exit code, p') => (Exit code, p')
    | (Panic msg, p') => (Panic msg, p')
    | (Blocked, p') => (Blocked, p')
    end.

Definition log `{GoMicro} (e : Event) (p : Process) : Process :=
  {| trace := trace p ++ [e]; notified := notified p; signals := signals p |}.

(** A call of an imported constructor [f] on [a], recorded as [ev a (f a)]. *)
Definition call `{GoMicro} {A B : Type} (ev : A -> B -> Event) (f : A -> B) (a : A)
  : Proc B :=
  fun p => (Return (f a), log (ev a (f a)) p).

(** [log.Fatalf]: the message is written and the process exits with
    status 1. *)
Definition log_Fatalf `{GoMicro} {A : Type} (msg : string) : Proc A :=
  fun p => (Exit 1%Z, log (EvFatalf msg) p).

(** [srv.Handle(pattern, handler)] *)
Definition srv_Handle `{GoMicro} (srv : server_Server) (pattern : string)
    (handler : http_Handler World) : Proc server_Server :=
  fun p => (Return (Server_Handle srv pattern handler), log (EvHandle pattern) p).

(** [srv.Start()] and [srv.Stop()] *)
Definition srv_Start `{GoMicro} (srv : server_Server) : Proc (option error * server_Server) :=
  fun p => (Return (Server_Start srv), log (EvStart (Server_Start srv).1) p).

Definition srv_Stop `{GoMicro} (srv : server_Server) : Proc (option error * server_Server) :=
  fun p => (Return (Server_Stop srv), log (EvStop (Server_Stop srv).1) p).

(** [quit := make(chan os.Signal, 1)]: a new, empty channel; no signal is
    relayed to it yet. *)
Definition make_quit `{GoMicro} : Proc unit :=
  fun p => (Return tt, {| trace := trace p; notified := []; signals := signals p |}).

(** [signal.Notify(quit, sigs...)]: from now on the signals of [sigs] are
    relayed to the channel. *)
Definition signal_Notify `{GoMicro} (sigs : list Signal) : Proc unit :=
  fun p => (Return tt,
            {| trace := trace p ++ [EvNotify sigs];
               notified := notified p ++ sigs; signals := signals p |}).

(** The first signal of [sigs] that is relayed, with the signals after it.
    A signal that is not relayed never reaches the channel. *)
Fixpoint relayed (relay : list Signal) (sigs : list Signal) : option (Signal * list Signal) :=
  match sigs with
  | [] => None
  | s :: rest =>
      if bool_decide (s ∈ relay) then Some (s, rest) else relayed relay rest
  end.

(** [<-quit] on the freshly made channel: the receive returns with the first
    relayed signal; when none is ever sent it does not return. *)
Definition recv_quit `{GoMicro} : Proc Signal :=
  fun p =>
    match relayed (notified p) (signals p) with
    | Some (s, rest) =>
        (Return s, {| trace := trace p ++ [EvRecv s];
                      notified := notified p; signals := rest |})
    | None => (Blocked, {| trace := trace p; notified := notified p; signals := [] |})
    end.

(** ** cmd.go *)

Definition DefaultFlags : list cli_StringFlag :=
  [ {| flag_Name := "server_address"; flag_Value := ":8080";
       flag_Usage := "--server_address=[server_address]" |};
    {| flag_Name := "namespace"; flag_Value := "go.micro";
       flag_Usage := "--namespace=[namespace]" |};
    {| flag_Name := "router"; flag_Value := "registry";
       flag_Usage := "--router=[router]" |};
    {| flag_Name := "resolver"; flag_Value := "vpath";
       flag_Usage := "--resolver=[resolver]" |};
    {| flag_Name := "handler"; flag_Value := "rpc";
       flag_Usage := "--handler" |} ].

Definition DefaultRouters `{GoMicro}
  : gmap string (list (router_Option resolver_Resolver) -> router_Router) :=
  {[ "registry" := (fun option => registry_NewRouter option);
     "static" := (fun option => static_NewRouter option) ]}.

Definition DefaultResolvers `{GoMicro}
  : gmap string (list resolver_Option -> resolver_Resolver) :=
  {[ "grpc" := (fun option => grpc_NewResolver option);
     "host" := (fun option => host_NewResolver option);
     "path" := (fun option => path_NewResolver option);
     "vpath" := (fun option => vpath_NewResolver option) ]}.

Definition DefaultHandlers `{GoMicro}
  : gmap string (list (handler_Option router_Router) -> handler_Handler) :=
  {[ "api" := (fun option => api_NewHandler option);
     "event" := (fun option => event_NewHandler option);
     "http" := (fun option => http_NewHandler option);
     "rpc" := (fun option => rpc_NewHandler option);
     "web" := (fun option => web_NewHandler option) ]}.

Definition set_Description `{GoMicro} (o : Options) (d : string) : Options :=
  {| Name := Name o; Description := d; Version := Version o; Server := Server o;
     Routers := Routers o; Resolvers := Resolvers o; Handlers := Handlers o |}.

Definition newCmd `{GoMicro} (opts : list Option) : cmd :=
  let options :=
    {| Name := ""; Description := ""; Version := ""; Server := None;
       Routers := DefaultRouters;
       Resolvers := DefaultResolvers;
       Handlers := DefaultHandlers |} in
  let options := fold_left (fun options o => o options) opts options in
  let options :=
    if (String.length (Description options) =? 0)%nat
    then set_Description options "a go-micro-api service" else options in
  {| opts := options;
     app := {| app_Name := Name options;
               app_Version := Version options;
               app_Usage := Description options;
               app_HideVersion := false;
               app_Flags := DefaultFlags |} |}.

Definition DefaultCmd `{GoMicro} : cmd := newCmd [].

Definition Before `{GoMicro} (c : cmd) (ctx : cli_Context) : Proc (option error * cmd) :=
  let routerOpts : list (router_Option resolver_Resolver) := [] in
  let resolverOpts : list resolver_Option := [] in
  let handlerOpts : list (handler_Option router_Router) := [] in

  let newRouter := registry_NewRouter in
  let newResolver := vpath_NewResolver in
  let newHandler := rpc_NewHandler in

  let address := ":8080" in
  let newServer := httpServer_NewServer in

  let address :=
    let arg := ctx_String ctx "server_address" in
    if (0 <? String.length arg)%nat then arg else address in

  let resolverOpts :=
    let arg := ctx_String ctx "namespace" in
    if (0 <? String.length arg)%nat
    then resolverOpts ++ [resolver_WithNamespace (resolver_StaticNamespace arg)]
    else resolverOpts in

  newRouter ←
    (let arg := ctx_String ctx "router" in
     if (0 <? String.length arg)%nat then
       match Routers (opts c) !! arg with
       | Some r => mret r
       | None => log_Fatalf ("Router " +:+ arg +:+ " is not found")
       end
     else mret newRouter);

  '(resolverOpts, newHandler) ←
    (let arg := ctx_String ctx "handler" in
     if (0 <? String.length arg)%nat then
       let resolverOpts := resolverOpts ++ [resolver_WithHandler arg] in
       match Handlers (opts c) !! arg with
       | Some h => mret (resolverOpts, h)
       | None => log_Fatalf ("Handler " +:+ arg +:+ " is not found")
       end
     else mret (resolverOpts, newHandler));

  newResolver ←
    (let arg := ctx_String ctx "resolver" in
     if (0 <? String.length arg)%nat then
       match Resolvers (opts c) !! arg with
       | Some r => mret r
       | None => log_Fatalf ("Resolver " +:+ arg +:+ " is not found")
       end
     else mret newResolver);

  rslv ← call EvNewResolver newResolver resolverOpts;
  let routerOpts := routerOpts ++ [router_WithResolver rslv] in
  rtr ← call EvNewRouter newRouter routerOpts;
  let handlerOpts := handlerOpts ++ [handler_WithRouter rtr] in
  hdlr ← call EvNewHandler newHandler handlerOpts;
  srv ← call EvNewServer newServer address;
  srv ← srv_Handle srv "/" (CorsMiddleware (Handler_ServeHTTP hdlr));
  let c := set_Server c srv in

  mret (None, c).

Definition Action `{GoMicro} (c : cmd) (ctx : cli_Context) : Proc (option error * cmd) :=
  match Server (opts c) with
  | None => fun p => (Panic "invalid memory address or nil pointer dereference", p)
  | Some srv =>
      '(err, srv) ← srv_Start srv;
      let c := set_Server c srv in
      match err with
      | Some err => mret (Some err, c)
      | None =>
          (* wait to finish *)
          _ ← make_quit;
          _ ← signal_Notify [syscall_SIGINT; syscall_SIGTERM];
          _ ← recv_quit;
          '(err, srv) ← srv_Stop srv;
          let c := set_Server c srv in
          match err with
          | Some err => mret (Some err, c)
          | None => mret (None, c)
          end
      end
  end.

(** What a caller of [Before] or [Action] observes of the outcome: the
    error returned and the server the command holds. *)
Definition observable `{GoMicro} (o : Outcome (option error * cmd))
  : Outcome (option error * option server_Server) :=
  match o with
  | Return (err, c) => Return (err, Server (opts c))
  | Exit code => Exit code
  | Panic msg => Panic msg
  | Blocked => Blocked
  end.

(** ** The callers: [App.Run], [Run] and [Init] *)

(** urfave/cli's [App.Run] as this package uses it: the command line has
    been parsed into [ctx] and asks for neither help nor version, the app
    has no sub-command and no [After] hook.  [newCmd] binds the [Before]
    hook and the [Action] to the methods of the same command [c]: the hook
    runs first, a non-nil error of it is returned without running the
    action, and the action sees what the hook stored in [c]. *)
Definition App_Run `{GoMicro} (c : cmd) (ctx : cli_Context) : Proc (option error * cmd) :=
  '(err, c) ← Before c ctx;
  match err with
  | Some err => mret (Some err, c)
  | None => Action c ctx
  end.









(** The context of a command line that gives no flag: every flag of
    [DefaultFlags] has its default value. *)
Definition default_context : cli_Context :=
  {| flagSet := list_to_map (map (fun f => (flag_Name f, flag_Value f)) DefaultFlags) |}.

(** The writer after the five [Set] calls of the middleware. *)
Definition cors_writer (writer : ResponseWriter) : ResponseWriter :=
  let writer := writer_Header_Set writer "Access-Control-Allow-Origin" "*" in
  let writer := writer_Header_Set writer "Access-Control-Allow-Headers"
    "Content-Type,AccessToken,X-CSRF-Token,Authorization,Token,X-Token,X-User-Id" in
  let writer := writer_Header_Set writer "Access-Control-Allow-Methods"
    "POST,GET,OPTIONS,DELETE,PUT" in
  let writer := writer_Header_Set writer "Access-Control-Expose-Headers"
    "Content-Length,Access-Control-Allow-Origin,Access-Control-Allow-Headers,Content-Type" in
  writer_Header_Set writer "Access-Control-Allow-Credentials" "true".

(** The server [Before] assembles from the three chosen factories. *)
Definition assembled `{GoMicro}
    (fRs : list resolver_Option -> resolver_Resolver)
    (fR : list (router_Option resolver_Resolver) -> router_Router)
    (fH : list (handler_Option router_Router) -> handler_Handler)
    (ropts : list resolver_Option) (address : string) : server_Server :=
  Server_Handle (httpServer_NewServer address) "/"
    (CorsMiddleware
       (Handler_ServeHTTP
          (fH [handler_WithRouter (fR [router_WithResolver (fRs ropts)])]))).

(** ** Vocabulary of the statements *)

(** The factory an axis ends with: the built-in one for the empty kind, the
    registry's entry otherwise. *)
Definition chosen {F : Type} (registry : gmap string F) (builtin : F)
    (kind : string) (f : F) : Prop :=
  (kind = "" ∧ f = builtin) ∨ (kind ≠ "" ∧ registry !! kind = Some f).

(** The options the resolver is built with, from the namespace and the
    handler kind. *)
Definition resolver_options (ctx : cli_Context) : list resolver_Option :=
  (if decide (ctx_String ctx "namespace" = "") then []
   else [resolver_WithNamespace (resolver_StaticNamespace (ctx_String ctx "namespace"))])
  ++ (if decide (ctx_String ctx "handler" = "") then []
      else [resolver_WithHandler (ctx_String ctx "handler")]).

(** The address the server is built with. *)
Definition bind_address (ctx : cli_Context) : string :=
  if decide (ctx_String ctx "server_address" = "") then ":8080"
  else ctx_String ctx "server_address".

(** ** A test double of the imported packages

    Constructors that record which implementation was asked for and with
    which options, and a server that records its address, the patterns
    registered and whether it listens.  As [net.Listen] does, the stub
    server refuses at [Start] an address without a port. *)

Inductive StubResolver : Type :=
| stubResolver (impl : string) (o : list resolver_Option).

Inductive StubRouter : Type :=
| stubRouter (impl : string) (o : list (router_Option StubResolver)).

Inductive StubHandler : Type :=
| stubHandler (impl : string) (o : list (handler_Option StubRouter)).

Record StubServer := {
  stub_address : string;
  stub_routes : list (string * http_Handler unit);
  stub_listening : bool
}.

(** The stub handler answers 200 with the name of its implementation. *)
Definition stub_ServeHTTP (h : StubHandler) : http_Handler unit :=
  fun writer request world =>
    let '(stubHandler impl _) := h in
    let writer := WriteHeader writer http_StatusOK in
    ({| Header := Header writer; wroteHeader := wroteHeader writer;
        Code := Code writer; Body := Body writer +:+ impl |}, world).

Definition has_port (address : string) : bool :=
  existsb (Ascii.eqb ":") (list_ascii_of_string address).

Definition stub_Start (s : StubServer) : option error * StubServer :=
  if has_port (stub_address s) then
    (None, {| stub_address := stub_address s; stub_routes := stub_routes s;
              stub_listening := true |})
  else
    (Some ("listen tcp: address " +:+ stub_address s +:+ ": missing port in address"), s).

Definition stub_Stop (s : StubServer) : option error * StubServer :=
  (None, {| stub_address := stub_address s; stub_routes := stub_routes s;
            stub_listening := false |}).

#[local] Instance stub : GoMicro := {|
  World := unit;
  resolver_Resolver := StubResolver;
  router_Router := StubRouter;
  handler_Handler := StubHandler;
  server_Server := StubServer;
  Handler_ServeHTTP := stub_ServeHTTP;
  registry_NewRouter := stubRouter "registry";
  static_NewRouter := stubRouter "static";
  grpc_NewResolver := stubResolver "grpc";
  host_NewResolver := stubResolver "host";
  path_NewResolver := stubResolver "path";
  vpath_NewResolver := stubResolver "vpath";
  api_NewHandler := stubHandler "api";
  event_NewHandler := stubHandler "event";
  http_NewHandler := stubHandler "http";
  rpc_NewHandler := stubHandler "rpc";
  web_NewHandler := stubHandler "web";
  httpServer_NewServer := fun address =>
    {| stub_address := address; stub_routes := []; stub_listening := false |};
  Server_Handle := fun s pattern handler =>
    {| stub_address := stub_address s;
       stub_routes := stub_routes s ++ [(pattern, handler)];
       stub_listening := stub_listening s |};
  Server_Start := stub_Start;
  Server_Stop := stub_Stop
|}.

(** A context from the values given on the command line. *)
Definition flags (l : list (string * string)) : cli_Context :=
  {| flagSet := list_to_map l |}.

(** The process at its start: nothing called, nothing relayed, and the
    signals [sigs] to come. *)
Definition start_process `{GoMicro} (sigs : list Signal) : Process :=
  {| trace := []; notified := []; signals := sigs |}.

Definition new_writer : ResponseWriter :=
  {| Header := ∅; wroteHeader := false; Code := 0%Z; Body := "" |}.

Definition request (method : string) : http_Request :=
  {| Method := method; URL := "/"; ReqHeader := ∅; ReqBody := "" |}.

(** A command whose registries map the empty name to factories other than
    the built-in ones. *)
Definition decoy_cmd : cmd (H := stub) :=
  {| opts := {| Name := ""; Description := ""; Version := ""; Server := None;
                Routers := {[ "" := stubRouter "decoy"; "static" := stubRouter "static" ]};
                Resolvers := {[ "" := stubResolver "decoy" ]};
                Handlers := {[ "" := stubHandler "decoy"; "web" := stubHandler "web" ]} |};
     app := app DefaultCmd |}.

(** A command whose server cannot listen: its address has no port. *)
Definition unbindable_cmd : cmd (H := stub) :=
  set_Server DefaultCmd
    {| stub_address := "nowhere"; stub_routes := []; stub_listening := false |}.



(** ** Properties of the CORS middleware *)

Example canonical_key_lower : CanonicalMIMEHeaderKey "content-type" = "Content-Type".
Proof. reflexivity. Qed.

Example canonical_key_space : CanonicalMIMEHeaderKey "x token" = "x token".
Proof. reflexivity. Qed.

(** The five names the middleware sets are already in canonical form. *)
Lemma canonical_key_cors :
  Forall (fun kv => CanonicalMIMEHeaderKey kv.1 = kv.1) cors_headers.
Proof. repeat constructor. Qed.

(** The writer after the five [Set] calls of the middleware. *)
Lemma cors_writer_spec (w : ResponseWriter) :
  let w0 :=
    writer_Header_Set
      (writer_Header_Set
         (writer_Header_Set
            (writer_Header_Set
               (writer_Header_Set w "Access-Control-Allow-Origin" "*")
               "Access-Control-Allow-Headers"
               "Content-Type,AccessToken,X-CSRF-Token,Authorization,Token,X-Token,X-User-Id")
            "Access-Control-Allow-Methods" "POST,GET,OPTIONS,DELETE,PUT")
         "Access-Control-Expose-Headers"
         "Content-Length,Access-Control-Allow-Origin,Access-Control-Allow-Headers,Content-Type")
      "Access-Control-Allow-Credentials" "true" in
  carries_cors (Header w0)
  ∧ wroteHeader w0 = wroteHeader w ∧ Code w0 = Code w ∧ Body w0 = Body w.
Proof.
  cbn zeta. split; [|done].
  unfold carries_cors, cors_headers, writer_Header_Set, Header_Set; cbn [Header].
  repeat match goal with
         | |- context [CanonicalMIMEHeaderKey ?k] =>
             change (CanonicalMIMEHeaderKey k) with k
         end.
  repeat constructor; cbn [fst snd]; by simplify_map_eq.
Qed.

(** C4. An OPTIONS request is answered by the middleware itself: the writer
    it leaves carries the five CORS headers, the world is untouched, the
    status is 200 on a writer whose status was not yet written, and the
    wrapped handler is not invoked (the result is the same for every
    handler, and a recording handler records nothing). *)
Theorem CorsMiddleware_options {W : Type} (handler : http_Handler W)
    (w : ResponseWriter) (req : http_Request) (world : W) :
  Method req = http_MethodOptions →
  ∃ w' : ResponseWriter,
    (∀ handler' : http_Handler W, CorsMiddleware handler' w req world = (w', world))
    ∧ carries_cors (Header w')
    ∧ (wroteHeader w = false → Code w' = http_StatusOK ∧ wroteHeader w' = true)
    ∧ Body w' = Body w
    ∧ (∀ calls, CorsMiddleware (recording handler) w req (world, calls)
                = (w', (world, calls))).
Proof.
  intros Hm.
  pose proof (cors_writer_spec w) as Hw. cbn zeta in Hw.
  destruct Hw as (Hc & Hwh & Hcode & Hbody).
  eexists. split; [|split; [|split; [|split]]].
  - intros handler'. unfold CorsMiddleware. rewrite Hm. cbn. reflexivity.
  - unfold WriteHeader. rewrite Hwh. by destruct (wroteHeader w).
  - intros Hfresh. unfold WriteHeader. rewrite Hwh, Hfresh. done.
  - unfold WriteHeader. rewrite Hwh. by destruct (wroteHeader w).
  - intros calls. unfold CorsMiddleware. rewrite Hm. cbn. reflexivity.
Qed.

Lemma CorsMiddleware_options_witness :
  ∃ w' : ResponseWriter,
    (∀ handler' : http_Handler unit,
       CorsMiddleware handler' new_writer (request "OPTIONS") tt = (w', tt))
    ∧ carries_cors (Header w')
    ∧ Code w' = 200%Z ∧ wroteHeader w' = true ∧ Body w' = ""
    ∧ (∀ calls,
         CorsMiddleware (recording (stub_ServeHTTP (stubHandler "rpc" [])))
           new_writer (request "OPTIONS") (tt, calls) = (w', (tt, calls))).
Proof.
  destruct (CorsMiddleware_options (stub_ServeHTTP (stubHandler "rpc" []))
              new_writer (request "OPTIONS") tt eq_refl)
    as (w' & Hall & Hc & Hcode & Hbody & Hrec).
  destruct (Hcode eq_refl) as [Hcode' Hwrote].
  exists w'. repeat split; assumption.
Defined.

(** C5. For any other method the middleware sets the five CORS headers on
    the writer and hands that writer and the original request to the wrapped
    handler: the result is the handler's, a recording handler records exactly
    that one request, and a handler that keeps the header entries it is given
    leaves a response that carries the five headers. *)
Theorem CorsMiddleware_delegates {W : Type} (handler : http_Handler W)
    (w : ResponseWriter) (req : http_Request) (world : W) :
  Method req ≠ http_MethodOptions →
  ∃ w0 : ResponseWriter,
    carries_cors (Header w0)
    ∧ wroteHeader w0 = wroteHeader w ∧ Code w0 = Code w ∧ Body w0 = Body w
    ∧ CorsMiddleware handler w req world = handler w0 req world
    ∧ (∀ calls, CorsMiddleware (recording handler) w req (world, calls)
                = ((handler w0 req world).1,
                   ((handler w0 req world).2, calls ++ [req])))
    ∧ ((∀ v r x k hv, Header v !! k = Some hv → Header (handler v r x).1 !! k = Some hv) →
       carries_cors (Header (CorsMiddleware handler w req world).1)).
Proof.
  intros Hm.
  pose proof (cors_writer_spec w) as Hw. cbn zeta in Hw.
  destruct Hw as (Hc & Hwh & Hcode & Hbody).
  assert (Hne : String.eqb (Method req) http_MethodOptions = false)
    by by apply String.eqb_neq.
  eexists. split; [exact Hc|]. repeat split; try done.
  - unfold CorsMiddleware. by rewrite Hne.
  - intros calls. unfold CorsMiddleware, recording. rewrite Hne.
    by destruct (handler _ req world).
  - intros Hkeep. unfold CorsMiddleware. rewrite Hne.
    unfold carries_cors in *. eapply Forall_impl; [exact Hc|].
    intros kv Hkv. by apply Hkeep.
Qed.

Lemma CorsMiddleware_delegates_witness :
  carries_cors
    (Header (CorsMiddleware (stub_ServeHTTP (stubHandler "rpc" []))
               new_writer (request "GET") tt).1)
  ∧ ∀ calls,
      (CorsMiddleware (recording (stub_ServeHTTP (stubHandler "rpc" [])))
         new_writer (request "GET") (tt, calls)).2
      = (tt, calls ++ [request "GET"]).
Proof.
  destruct (CorsMiddleware_delegates (stub_ServeHTTP (stubHandler "rpc" []))
              new_writer (request "GET") tt ltac:(discriminate))
    as (w0 & _ & _ & _ & _ & _ & Hrec & Hkeep).
  split.
  - apply Hkeep. intros v r x k hv Hl.
    unfold stub_ServeHTTP, WriteHeader. cbn. destruct (wroteHeader v); exact Hl.
  - intros calls. rewrite Hrec. cbn [snd].
    destruct (stub_ServeHTTP (stubHandler "rpc" []) w0 (request "GET") tt).2.
    reflexivity.
Defined.

(** ** Configuration resolution and assembly: [Before] *)

Lemma len_pos_true (s : string) : s ≠ "" → (0 <? String.length s)%nat = true.
Proof. destruct s; [done|]. intros _. reflexivity. Qed.

Lemma len_pos_false (s : string) : s = "" → (0 <? String.length s)%nat = false.
Proof. by intros ->. Qed.

Lemma chosen_cases {F : Type} (registry : gmap string F) (builtin : F) (kind : string) :
  (∃ f, chosen registry builtin kind f) ∨ (kind ≠ "" ∧ registry !! kind = None).
Proof.
  destruct (decide (kind = "")) as [->|Hne].
  - left. exists builtin. by left.
  - destruct (registry !! kind) as [f|] eqn:Hl.
    + left. exists f. by right.
    + by right.
Qed.

Lemma chosen_resolved {F : Type} (registry : gmap string F) (builtin : F) (kind : string) :
  kind = "" ∨ is_Some (registry !! kind) → ∃ f, chosen registry builtin kind f.
Proof.
  intros Hk. destruct (decide (kind = "")) as [->|Hne].
  - exists builtin. by left.
  - destruct Hk as [?|[f Hf]]; [done|]. exists f. by right.
Qed.

(** Runs the visible steps of a process computation. *)
Ltac run_proc :=
  unfold mbind, Proc_bind, mret, Proc_ret, call, log_Fatalf, srv_Handle,
    srv_Start, srv_Stop, make_quit, signal_Notify, recv_quit, log;
  cbn.

Section Before.
Context `{GoMicro}.
Implicit Types (c : cmd) (ctx : cli_Context) (p : Process).

Lemma Before_router_missing c ctx p :
  ctx_String ctx "router" ≠ "" →
  Routers (opts c) !! ctx_String ctx "router" = None →
  Before c ctx p
  = (Exit 1%Z,
     log (EvFatalf ("Router " +:+ ctx_String ctx "router" +:+ " is not found")) p).
Proof.
  intros Hne Hl. unfold Before. cbn zeta.
  rewrite (len_pos_true _ Hne), Hl. by run_proc.
Qed.

Lemma Before_handler_missing c ctx p fR :
  chosen (Routers (opts c)) registry_NewRouter (ctx_String ctx "router") fR →
  ctx_String ctx "handler" ≠ "" →
  Handlers (opts c) !! ctx_String ctx "handler" = None →
  Before c ctx p
  = (Exit 1%Z,
     log (EvFatalf ("Handler " +:+ ctx_String ctx "handler" +:+ " is not found")) p).
Proof.
  intros HR Hne Hl. unfold Before. cbn zeta.
  rewrite (len_pos_true _ Hne), Hl.
  destruct HR as [[HR ->]|[HR HlR]].
  - rewrite (len_pos_false _ HR). by run_proc.
  - rewrite (len_pos_true _ HR), HlR. by run_proc.
Qed.

Lemma Before_resolver_missing c ctx p fR fH :
  chosen (Routers (opts c)) registry_NewRouter (ctx_String ctx "router") fR →
  chosen (Handlers (opts c)) rpc_NewHandler (ctx_String ctx "handler") fH →
  ctx_String ctx "resolver" ≠ "" →
  Resolvers (opts c) !! ctx_String ctx "resolver" = None →
  Before c ctx p
  = (Exit 1%Z,
     log (EvFatalf ("Resolver " +:+ ctx_String ctx "resolver" +:+ " is not found")) p).
Proof.
  intros HR HH Hne Hl. unfold Before. cbn zeta.
  rewrite (len_pos_true _ Hne), Hl.
  destruct HR as [[HR ->]|[HR HlR]], HH as [[HH ->]|[HH HlH]];
    rewrite ?(len_pos_false _ HR), ?(len_pos_true _ HR), ?HlR,
            ?(len_pos_false _ HH), ?(len_pos_true _ HH), ?HlH;
    by run_proc.
Qed.

(** When the three kinds resolve, [Before] returns nil after exactly five
    calls: the resolver, the router on the resolver, the handler on the
    router, the server on the address, and the registration at the root
    pattern of the handler behind the CORS middleware. *)
Lemma Before_resolved c ctx p fR fH fRs :
  chosen (Routers (opts c)) registry_NewRouter (ctx_String ctx "router") fR →
  chosen (Handlers (opts c)) rpc_NewHandler (ctx_String ctx "handler") fH →
  chosen (Resolvers (opts c)) vpath_NewResolver (ctx_String ctx "resolver") fRs →
  let rslv := fRs (resolver_options ctx) in
  let rtr := fR [router_WithResolver rslv] in
  let hdlr := fH [handler_WithRouter rtr] in
  let srv := httpServer_NewServer (bind_address ctx) in
  Before c ctx p
  = (Return (None,
             set_Server c
               (Server_Handle srv "/" (CorsMiddleware (Handler_ServeHTTP hdlr)))),
     {| trace := trace p ++
                 [EvNewResolver (resolver_options ctx) rslv;
                  EvNewRouter [router_WithResolver rslv] rtr;
                  EvNewHandler [handler_WithRouter rtr] hdlr;
                  EvNewServer (bind_address ctx) srv;
                  EvHandle "/"];
        notified := notified p; signals := signals p |}).
Proof.
  intros HR HH HRs. cbn zeta. unfold Before, resolver_options, bind_address. cbn zeta.
  destruct HR as [[HR ->]|[HR HlR]], HH as [[HH ->]|[HH HlH]],
           HRs as [[HRs ->]|[HRs HlRs]];
    rewrite ?(len_pos_false _ HR), ?(len_pos_true _ HR), ?HlR,
            ?(len_pos_false _ HH), ?(len_pos_true _ HH), ?HlH,
            ?(len_pos_false _ HRs), ?(len_pos_true _ HRs), ?HlRs;
    destruct (decide (ctx_String ctx "namespace" = "")) as [Hn|Hn];
    rewrite ?(len_pos_false _ Hn), ?(len_pos_true _ Hn);
    destruct (decide (ctx_String ctx "server_address" = "")) as [Ha|Ha];
    rewrite ?(len_pos_false _ Ha), ?(len_pos_true _ Ha);
    repeat case_decide; try done;
    run_proc; rewrite <- ?app_assoc; reflexivity.
Qed.
End Before.

Section BeforeCases.
Context `{GoMicro}.
Implicit Types (c : cmd) (ctx : cli_Context) (p : Process).

(** [Before] ends in one of two ways: a fatal diagnostic as its only call,
    or the three factories chosen. *)
Lemma Before_cases c ctx p :
  (∃ msg, Before c ctx p = (Exit 1%Z, log (EvFatalf msg) p))
  ∨ (∃ fR fH fRs,
       chosen (Routers (opts c)) registry_NewRouter (ctx_String ctx "router") fR
       ∧ chosen (Handlers (opts c)) rpc_NewHandler (ctx_String ctx "handler") fH
       ∧ chosen (Resolvers (opts c)) vpath_NewResolver (ctx_String ctx "resolver") fRs).
Proof.
  destruct (chosen_cases (Routers (opts c)) registry_NewRouter (ctx_String ctx "router"))
    as [[fR HR]|[? ?]]; [|left; eexists; by apply Before_router_missing].
  destruct (chosen_cases (Handlers (opts c)) rpc_NewHandler (ctx_String ctx "handler"))
    as [[fH HH]|[? ?]]; [|left; eexists; by eapply Before_handler_missing].
  destruct (chosen_cases (Resolvers (opts c)) vpath_NewResolver (ctx_String ctx "resolver"))
    as [[fRs HRs]|[? ?]]; [|left; eexists; by eapply Before_resolver_missing].
  right. by exists fR, fH, fRs.
Qed.

(** [Before] reads a registry only at a non-empty kind: two commands whose
    registries agree there end alike. *)
Lemma Before_reads_registry_at_kind c1 c2 ctx p :
  (ctx_String ctx "router" = ""
   ∨ Routers (opts c1) !! ctx_String ctx "router"
     = Routers (opts c2) !! ctx_String ctx "router") →
  (ctx_String ctx "handler" = ""
   ∨ Handlers (opts c1) !! ctx_String ctx "handler"
     = Handlers (opts c2) !! ctx_String ctx "handler") →
  (ctx_String ctx "resolver" = ""
   ∨ Resolvers (opts c1) !! ctx_String ctx "resolver"
     = Resolvers (opts c2) !! ctx_String ctx "resolver") →
  observable (Before c1 ctx p).1 = observable (Before c2 ctx p).1
  ∧ (Before c1 ctx p).2 = (Before c2 ctx p).2.
Proof.
  intros HR HH HRs. unfold Before. cbn zeta.
  destruct (decide (ctx_String ctx "router" = "")) as [Er|Er];
    rewrite ?(len_pos_false _ Er), ?(len_pos_true _ Er);
    [|destruct HR as [?|<-]; [done|];
      destruct (Routers (opts c1) !! ctx_String ctx "router"); [|by run_proc]];
    (destruct (decide (ctx_String ctx "handler" = "")) as [Eh|Eh];
     rewrite ?(len_pos_false _ Eh), ?(len_pos_true _ Eh);
     [|destruct HH as [?|<-]; [done|];
       destruct (Handlers (opts c1) !! ctx_String ctx "handler"); [|by run_proc]]);
    (destruct (decide (ctx_String ctx "resolver" = "")) as [Es|Es];
     rewrite ?(len_pos_false _ Es), ?(len_pos_true _ Es);
     [|destruct HRs as [?|<-]; [done|];
       destruct (Resolvers (opts c1) !! ctx_String ctx "resolver"); [|by run_proc]]);
    by run_proc.
Qed.
End BeforeCases.

(** C1. When the router, handler or resolver kind is non-empty and absent
    from its registry, [Before] does not return: the process exits with
    status 1, and the one call it has made is the fatal log, whose message
    names an axis and the kind that is non-empty and absent on that axis.
    No resolver, router, handler or server is constructed and the server is
    not started. *)
Theorem Before_unknown_kind_fatal `{GoMicro} (c : cmd) (ctx : cli_Context) (p : Process) :
  (ctx_String ctx "router" ≠ ""
   ∧ Routers (opts c) !! ctx_String ctx "router" = None)
  ∨ (ctx_String ctx "handler" ≠ ""
     ∧ Handlers (opts c) !! ctx_String ctx "handler" = None)
  ∨ (ctx_String ctx "resolver" ≠ ""
     ∧ Resolvers (opts c) !! ctx_String ctx "resolver" = None) →
  ∃ axis kind : string,
    ((axis = "Router" ∧ kind = ctx_String ctx "router"
      ∧ kind ≠ "" ∧ Routers (opts c) !! kind = None)
     ∨ (axis = "Handler" ∧ kind = ctx_String ctx "handler"
        ∧ kind ≠ "" ∧ Handlers (opts c) !! kind = None)
     ∨ (axis = "Resolver" ∧ kind = ctx_String ctx "resolver"
        ∧ kind ≠ "" ∧ Resolvers (opts c) !! kind = None))
    ∧ (Before c ctx p).1 = Exit 1%Z
    ∧ trace (Before c ctx p).2
      = trace p ++ [EvFatalf (axis +:+ " " +:+ kind +:+ " is not found")]
    ∧ signals (Before c ctx p).2 = signals p.
Proof.
  intros Hmiss.
  destruct (chosen_cases (Routers (opts c)) registry_NewRouter (ctx_String ctx "router"))
    as [[fR HR]|[HneR HlR]].
  2:{ exists "Router", (ctx_String ctx "router").
      rewrite (Before_router_missing c ctx p HneR HlR).
      split; [by left|done]. }
  destruct (chosen_cases (Handlers (opts c)) rpc_NewHandler (ctx_String ctx "handler"))
    as [[fH HH]|[HneH HlH]].
  2:{ exists "Handler", (ctx_String ctx "handler").
      rewrite (Before_handler_missing c ctx p fR HR HneH HlH).
      split; [by right; left|done]. }
  destruct (chosen_cases (Resolvers (opts c)) vpath_NewResolver (ctx_String ctx "resolver"))
    as [[fRs HRs]|[HneRs HlRs]].
  2:{ exists "Resolver", (ctx_String ctx "resolver").
      rewrite (Before_resolver_missing c ctx p fR fH HR HH HneRs HlRs).
      split; [by right; right|done]. }
  exfalso.
  destruct Hmiss as [[? Hl]|[[? Hl]|[? Hl]]];
    [destruct HR as [[? _]|[_ HR]] | destruct HH as [[? _]|[_ HH]]
     | destruct HRs as [[? _]|[_ HRs]]];
    congruence.
Qed.

Lemma Before_unknown_kind_fatal_witness :
  ∃ axis kind : string,
    ((axis = "Router" ∧ kind = "doesnotexist"
      ∧ kind ≠ "" ∧ Routers (opts DefaultCmd) !! kind = None)
     ∨ (axis = "Handler" ∧ kind = "web"
        ∧ kind ≠ "" ∧ Handlers (opts DefaultCmd) !! kind = None)
     ∨ (axis = "Resolver" ∧ kind = "host"
        ∧ kind ≠ "" ∧ Resolvers (opts DefaultCmd) !! kind = None))
    ∧ (Before DefaultCmd
         (flags [("router", "doesnotexist"); ("handler", "web"); ("resolver", "host")])
         (start_process [])).1 = Exit 1%Z
    ∧ trace (Before DefaultCmd
         (flags [("router", "doesnotexist"); ("handler", "web"); ("resolver", "host")])
         (start_process [])).2
      = trace (start_process []) ++ [EvFatalf (axis +:+ " " +:+ kind +:+ " is not found")]
    ∧ signals (Before DefaultCmd
         (flags [("router", "doesnotexist"); ("handler", "web"); ("resolver", "host")])
         (start_process [])).2 = signals (start_process []).
Proof.
  apply (Before_unknown_kind_fatal (H := stub) DefaultCmd
           (flags [("router", "doesnotexist"); ("handler", "web"); ("resolver", "host")])
           (start_process [])).
  left. split; [discriminate | vm_compute; reflexivity].
Defined.

(** C2. An empty kind takes the built-in factory of its axis, whatever the
    registry holds.  First part: replacing the registry of an axis whose
    kind is empty changes neither the outcome nor the calls made, so that
    registry is not consulted.  Second part: when the three kinds resolve,
    [Before] returns, having built the resolver, the router on it, the
    handler on the router and the server; the router is
    [registry.NewRouter]'s when the router kind is empty, the handler
    [rpc.NewHandler]'s when the handler kind is empty, and the resolver
    [vpath.NewResolver]'s when the resolver kind is empty. *)
Theorem Before_empty_kind_builtin `{GoMicro} (c : cmd) (ctx : cli_Context) (p : Process) :
  (∀ c' : cmd,
     (ctx_String ctx "router" = "" ∨ Routers (opts c') = Routers (opts c)) →
     (ctx_String ctx "handler" = "" ∨ Handlers (opts c') = Handlers (opts c)) →
     (ctx_String ctx "resolver" = "" ∨ Resolvers (opts c') = Resolvers (opts c)) →
     observable (Before c' ctx p).1 = observable (Before c ctx p).1
     ∧ (Before c' ctx p).2 = (Before c ctx p).2)
  ∧ ((ctx_String ctx "router" = ""
      ∨ is_Some (Routers (opts c) !! ctx_String ctx "router")) →
     (ctx_String ctx "handler" = ""
      ∨ is_Some (Handlers (opts c) !! ctx_String ctx "handler")) →
     (ctx_String ctx "resolver" = ""
      ∨ is_Some (Resolvers (opts c) !! ctx_String ctx "resolver")) →
     ∃ rslv rtr hdlr srv,
       (Before c ctx p).1
       = Return (None,
                 set_Server c
                   (Server_Handle srv "/" (CorsMiddleware (Handler_ServeHTTP hdlr))))
       ∧ trace (Before c ctx p).2
         = trace p ++
           [EvNewResolver (resolver_options ctx) rslv;
            EvNewRouter [router_WithResolver rslv] rtr;
            EvNewHandler [handler_WithRouter rtr] hdlr;
            EvNewServer (bind_address ctx) srv;
            EvHandle "/"]
       ∧ (ctx_String ctx "router" = "" →
          rtr = registry_NewRouter [router_WithResolver rslv])
       ∧ (ctx_String ctx "handler" = "" →
          hdlr = rpc_NewHandler [handler_WithRouter rtr])
       ∧ (ctx_String ctx "resolver" = "" →
          rslv = vpath_NewResolver (resolver_options ctx))).
Proof.
  split.
  - intros c' HR HH HRs. apply Before_reads_registry_at_kind.
    + destruct HR as [? | ->]; auto.
    + destruct HH as [? | ->]; auto.
    + destruct HRs as [? | ->]; auto.
  - intros HR HH HRs.
    apply (chosen_resolved _ registry_NewRouter) in HR as [fR HR].
    apply (chosen_resolved _ rpc_NewHandler) in HH as [fH HH].
    apply (chosen_resolved _ vpath_NewResolver) in HRs as [fRs HRs].
    rewrite (Before_resolved c ctx p fR fH fRs HR HH HRs). cbn [fst snd trace].
    do 4 eexists. split; [reflexivity|]. split; [reflexivity|].
    split; [|split]; intros E.
    + destruct HR as [[_ ->]|[? _]]; done.
    + destruct HH as [[_ ->]|[? _]]; done.
    + destruct HRs as [[_ ->]|[? _]]; done.
Qed.

Lemma Before_empty_kind_builtin_witness :
  ∃ rslv rtr hdlr srv,
    (Before decoy_cmd (flags [("handler", "web")]) (start_process [])).1
    = Return (None,
              set_Server decoy_cmd
                (Server_Handle srv "/" (CorsMiddleware (Handler_ServeHTTP hdlr))))
    ∧ trace (Before decoy_cmd (flags [("handler", "web")]) (start_process [])).2
      = [EvNewResolver [resolver_WithHandler "web"] rslv;
         EvNewRouter [router_WithResolver rslv] rtr;
         EvNewHandler [handler_WithRouter rtr] hdlr;
         EvNewServer ":8080" srv;
         EvHandle "/"]
    ∧ rtr = stubRouter "registry" [router_WithResolver rslv]
    ∧ rslv = stubResolver "vpath" [resolver_WithHandler "web"].
Proof.
  destruct (proj2 (Before_empty_kind_builtin (H := stub) decoy_cmd
                     (flags [("handler", "web")]) (start_process [])))
    as (rslv & rtr & hdlr & srv & Hret & Htr & HR & _ & HRs).
  - left. reflexivity.
  - right. vm_compute. eexists. reflexivity.
  - left. reflexivity.
  - exists rslv, rtr, hdlr, srv.
    split; [exact Hret|]. split; [exact Htr|].
    split; [exact (HR eq_refl) | exact (HRs eq_refl)].
Defined.

(** C3. With a non-empty handler kind [h] and a non-empty namespace [n],
    the resolver is built with exactly two options, the static namespace
    [n] and the handler tag [h].  When the three kinds resolve, [Before]
    returns and the construction of the resolver on these options is its
    first call, the router being built on that resolver.  When the handler
    kind is absent from the registry, the process exits on a fatal log as
    its only call: no resolver is constructed, even for a registered
    resolver kind, so the resolver is built only after the handler kind has
    been accepted. *)
Theorem Before_threads_handler_and_namespace `{GoMicro}
    (c : cmd) (ctx : cli_Context) (p : Process) (h n : string) :
  ctx_String ctx "handler" = h → h ≠ "" →
  ctx_String ctx "namespace" = n → n ≠ "" →
  ((ctx_String ctx "router" = ""
    ∨ is_Some (Routers (opts c) !! ctx_String ctx "router")) →
   is_Some (Handlers (opts c) !! h) →
   (ctx_String ctx "resolver" = ""
    ∨ is_Some (Resolvers (opts c) !! ctx_String ctx "resolver")) →
   ∃ rslv rtr hdlr srv,
     (Before c ctx p).1
     = Return (None,
               set_Server c
                 (Server_Handle srv "/" (CorsMiddleware (Handler_ServeHTTP hdlr))))
     ∧ trace (Before c ctx p).2
       = trace p ++
         [EvNewResolver
            [resolver_WithNamespace (resolver_StaticNamespace n);
             resolver_WithHandler h] rslv;
          EvNewRouter [router_WithResolver rslv] rtr;
          EvNewHandler [handler_WithRouter rtr] hdlr;
          EvNewServer (bind_address ctx) srv;
          EvHandle "/"])
  ∧ (Handlers (opts c) !! h = None →
     ∃ msg, (Before c ctx p).1 = Exit 1%Z
            ∧ trace (Before c ctx p).2 = trace p ++ [EvFatalf msg]).
Proof.
  intros Hh Hhne Hn Hnne.
  assert (Hopts : resolver_options ctx
                  = [resolver_WithNamespace (resolver_StaticNamespace n);
                     resolver_WithHandler h]).
  { unfold resolver_options. rewrite Hh, Hn.
    destruct (decide (n = "")); [done|]. destruct (decide (h = "")); done. }
  split.
  - intros HR HH HRs.
    apply (chosen_resolved _ registry_NewRouter) in HR as [fR HR].
    assert (∃ fH, chosen (Handlers (opts c)) rpc_NewHandler (ctx_String ctx "handler") fH)
      as [fH HHc] by (apply chosen_resolved; right; by rewrite Hh).
    apply (chosen_resolved _ vpath_NewResolver) in HRs as [fRs HRs].
    rewrite (Before_resolved c ctx p fR fH fRs HR HHc HRs). cbn [fst snd trace].
    rewrite Hopts. do 4 eexists. split; reflexivity.
  - intros Hmiss. rewrite <- Hh in Hmiss, Hhne.
    destruct (chosen_cases (Routers (opts c)) registry_NewRouter (ctx_String ctx "router"))
      as [[fR HR]|[HneR HlR]].
    + rewrite (Before_handler_missing c ctx p fR HR Hhne Hmiss). by eexists.
    + rewrite (Before_router_missing c ctx p HneR HlR). by eexists.
Qed.

Lemma Before_threads_handler_and_namespace_witness :
  (∃ rslv rtr hdlr srv,
     (Before DefaultCmd (flags [("handler", "api"); ("namespace", "foo")])
        (start_process [])).1
     = Return (None,
               set_Server DefaultCmd
                 (Server_Handle srv "/" (CorsMiddleware (Handler_ServeHTTP hdlr))))
     ∧ trace (Before DefaultCmd (flags [("handler", "api"); ("namespace", "foo")])
                (start_process [])).2
       = [EvNewResolver
            [resolver_WithNamespace (resolver_StaticNamespace "foo");
             resolver_WithHandler "api"] rslv;
          EvNewRouter [router_WithResolver rslv] rtr;
          EvNewHandler [handler_WithRouter rtr] hdlr;
          EvNewServer ":8080" srv;
          EvHandle "/"])
  ∧ (∃ msg,
       (Before DefaultCmd
          (flags [("handler", "soap"); ("namespace", "foo"); ("resolver", "host")])
          (start_process [])).1 = Exit 1%Z
       ∧ trace (Before DefaultCmd
                  (flags [("handler", "soap"); ("namespace", "foo"); ("resolver", "host")])
                  (start_process [])).2 = [EvFatalf msg]).
Proof.
  split.
  - apply (proj1 (Before_threads_handler_and_namespace (H := stub) DefaultCmd
                    (flags [("handler", "api"); ("namespace", "foo")])
                    (start_process []) "api" "foo"
                    eq_refl ltac:(discriminate) eq_refl ltac:(discriminate))).
    + left. reflexivity.
    + vm_compute. eexists. reflexivity.
    + left. reflexivity.
  - apply (proj2 (Before_threads_handler_and_namespace (H := stub) DefaultCmd
                    (flags [("handler", "soap"); ("namespace", "foo"); ("resolver", "host")])
                    (start_process []) "soap" "foo"
                    eq_refl ltac:(discriminate) eq_refl ltac:(discriminate))).
    vm_compute. reflexivity.
Defined.

(** C9. The server is built on [":8080"] when the [server_address] flag is
    empty and on the flag's value otherwise: when the three kinds resolve,
    [Before] returns with the command holding the server made by
    [NewServer] on that address, with the handler registered at the root
    pattern, and the one [NewServer] call of the trace has that address. *)
Theorem Before_bind_address `{GoMicro} (c : cmd) (ctx : cli_Context) (p : Process) :
  (ctx_String ctx "router" = ""
   ∨ is_Some (Routers (opts c) !! ctx_String ctx "router")) →
  (ctx_String ctx "handler" = ""
   ∨ is_Some (Handlers (opts c) !! ctx_String ctx "handler")) →
  (ctx_String ctx "resolver" = ""
   ∨ is_Some (Resolvers (opts c) !! ctx_String ctx "resolver")) →
  ∃ address rslv rtr hdlr c',
    (ctx_String ctx "server_address" = "" → address = ":8080")
    ∧ (ctx_String ctx "server_address" ≠ "" → address = ctx_String ctx "server_address")
    ∧ (Before c ctx p).1 = Return (None, c')
    ∧ Server (opts c')
      = Some (Server_Handle (httpServer_NewServer address) "/"
                (CorsMiddleware (Handler_ServeHTTP hdlr)))
    ∧ trace (Before c ctx p).2
      = trace p ++
        [EvNewResolver (resolver_options ctx) rslv;
         EvNewRouter [router_WithResolver rslv] rtr;
         EvNewHandler [handler_WithRouter rtr] hdlr;
         EvNewServer address (httpServer_NewServer address);
         EvHandle "/"].
Proof.
  intros HR HH HRs.
  apply (chosen_resolved _ registry_NewRouter) in HR as [fR HR].
  apply (chosen_resolved _ rpc_NewHandler) in HH as [fH HH].
  apply (chosen_resolved _ vpath_NewResolver) in HRs as [fRs HRs].
  rewrite (Before_resolved c ctx p fR fH fRs HR HH HRs). cbn [fst snd trace].
  exists (bind_address ctx). do 4 eexists.
  split; [|split; [|split; [reflexivity|split; reflexivity]]];
    unfold bind_address; intros E; by destruct (decide _).
Qed.

Lemma Before_bind_address_witness :
  (∃ rslv rtr hdlr c',
     (Before DefaultCmd (flags [("server_address", "127.0.0.1:9090")])
        (start_process [])).1 = Return (None, c')
     ∧ Server (opts c')
       = Some (Server_Handle (httpServer_NewServer "127.0.0.1:9090") "/"
                 (CorsMiddleware (Handler_ServeHTTP hdlr)))
     ∧ trace (Before DefaultCmd (flags [("server_address", "127.0.0.1:9090")])
                (start_process [])).2
       = [EvNewResolver [] rslv;
          EvNewRouter [router_WithResolver rslv] rtr;
          EvNewHandler [handler_WithRouter rtr] hdlr;
          EvNewServer "127.0.0.1:9090" (httpServer_NewServer "127.0.0.1:9090");
          EvHandle "/"])
  ∧ (∃ hdlr c',
       (Before DefaultCmd (flags [("server_address", "")]) (start_process [])).1
       = Return (None, c')
       ∧ Server (opts c')
         = Some (Server_Handle (httpServer_NewServer ":8080") "/"
                   (CorsMiddleware (Handler_ServeHTTP hdlr)))).
Proof.
  split.
  - destruct (Before_bind_address (H := stub) DefaultCmd
                (flags [("server_address", "127.0.0.1:9090")]) (start_process []))
      as (address & rslv & rtr & hdlr & c' & _ & Ha & Hret & Hsrv & Htr);
      [left; reflexivity ..|].
    rewrite (Ha ltac:(discriminate)) in Hsrv, Htr.
    exists rslv, rtr, hdlr, c'. split; [exact Hret|]. split; [exact Hsrv|exact Htr].
  - destruct (Before_bind_address (H := stub) DefaultCmd
                (flags [("server_address", "")]) (start_process []))
      as (address & rslv & rtr & hdlr & c' & Ha & _ & Hret & Hsrv & _);
      [left; reflexivity ..|].
    rewrite (Ha eq_refl) in Hsrv.
    exists hdlr, c'. split; [exact Hret|exact Hsrv].
Defined.



(** ** The default registries *)

Section Defaults.
Context `{GoMicro}.

Lemma DefaultCmd_registries :
  Routers (opts DefaultCmd) = DefaultRouters
  ∧ Resolvers (opts DefaultCmd) = DefaultResolvers
  ∧ Handlers (opts DefaultCmd) = DefaultHandlers
  ∧ Server (opts DefaultCmd) = None.
Proof. done. Qed.

Lemma dom_DefaultRouters :
  dom DefaultRouters = ({[ "registry"; "static" ]} : gset string).
Proof. unfold DefaultRouters. rewrite !dom_insert_L, dom_singleton_L. set_solver. Qed.

Lemma dom_DefaultResolvers :
  dom DefaultResolvers = ({[ "grpc"; "host"; "path"; "vpath" ]} : gset string).
Proof. unfold DefaultResolvers. rewrite !dom_insert_L, dom_singleton_L. set_solver. Qed.

Lemma dom_DefaultHandlers :
  dom DefaultHandlers = ({[ "api"; "event"; "http"; "rpc"; "web" ]} : gset string).
Proof. unfold DefaultHandlers. rewrite !dom_insert_L, dom_singleton_L. set_solver. Qed.

(** The factory each default name stands for. *)
Lemma DefaultRouters_lookup :
  DefaultRouters !! "registry" = Some registry_NewRouter
  ∧ DefaultRouters !! "static" = Some static_NewRouter.
Proof. unfold DefaultRouters. split; by simplify_map_eq. Qed.

Lemma DefaultResolvers_lookup :
  DefaultResolvers !! "grpc" = Some grpc_NewResolver
  ∧ DefaultResolvers !! "host" = Some host_NewResolver
  ∧ DefaultResolvers !! "path" = Some path_NewResolver
  ∧ DefaultResolvers !! "vpath" = Some vpath_NewResolver.
Proof. unfold DefaultResolvers. repeat split; by simplify_map_eq. Qed.

Lemma DefaultHandlers_lookup :
  DefaultHandlers !! "api" = Some api_NewHandler
  ∧ DefaultHandlers !! "event" = Some event_NewHandler
  ∧ DefaultHandlers !! "http" = Some http_NewHandler
  ∧ DefaultHandlers !! "rpc" = Some rpc_NewHandler
  ∧ DefaultHandlers !! "web" = Some web_NewHandler.
Proof. unfold DefaultHandlers. repeat split; by simplify_map_eq. Qed.
End Defaults.

(** C10. Under the default registries the names that resolve are exactly
    registry and static for routers; grpc, host, path and vpath for
    resolvers; api, event, http, rpc and web for handlers: a lookup succeeds
    exactly on these names.  With the default command, a run in which some
    kind is non-empty and outside its set exits with status 1 on a fatal
    log, its only call; a run in which every kind is empty or inside its set
    returns nil. *)
Theorem DefaultCmd_recognized_kinds `{GoMicro} :
  (∀ k, is_Some (DefaultRouters !! k) ↔ k ∈ ({[ "registry"; "static" ]} : gset string))
  ∧ (∀ k, is_Some (DefaultResolvers !! k)
          ↔ k ∈ ({[ "grpc"; "host"; "path"; "vpath" ]} : gset string))
  ∧ (∀ k, is_Some (DefaultHandlers !! k)
          ↔ k ∈ ({[ "api"; "event"; "http"; "rpc"; "web" ]} : gset string))
  ∧ ∀ (ctx : cli_Context) (p : Process),
      ((ctx_String ctx "router" ≠ ""
        ∧ ctx_String ctx "router" ∉ ({[ "registry"; "static" ]} : gset string))
       ∨ (ctx_String ctx "handler" ≠ ""
          ∧ ctx_String ctx "handler"
            ∉ ({[ "api"; "event"; "http"; "rpc"; "web" ]} : gset string))
       ∨ (ctx_String ctx "resolver" ≠ ""
          ∧ ctx_String ctx "resolver"
            ∉ ({[ "grpc"; "host"; "path"; "vpath" ]} : gset string)) →
       ∃ msg, (Before DefaultCmd ctx p).1 = Exit 1%Z
              ∧ trace (Before DefaultCmd ctx p).2 = trace p ++ [EvFatalf msg])
      ∧ ((ctx_String ctx "router" = ""
          ∨ ctx_String ctx "router" ∈ ({[ "registry"; "static" ]} : gset string)) →
         (ctx_String ctx "handler" = ""
          ∨ ctx_String ctx "handler"
            ∈ ({[ "api"; "event"; "http"; "rpc"; "web" ]} : gset string)) →
         (ctx_String ctx "resolver" = ""
          ∨ ctx_String ctx "resolver"
            ∈ ({[ "grpc"; "host"; "path"; "vpath" ]} : gset string)) →
         ∃ c', (Before DefaultCmd ctx p).1 = Return (None, c')).
Proof.
  assert (HdR : ∀ k, is_Some (DefaultRouters !! k)
                     ↔ k ∈ ({[ "registry"; "static" ]} : gset string))
    by (intros k; by rewrite <- elem_of_dom, dom_DefaultRouters).
  assert (HdRs : ∀ k, is_Some (DefaultResolvers !! k)
                      ↔ k ∈ ({[ "grpc"; "host"; "path"; "vpath" ]} : gset string))
    by (intros k; by rewrite <- elem_of_dom, dom_DefaultResolvers).
  assert (HdH : ∀ k, is_Some (DefaultHandlers !! k)
                     ↔ k ∈ ({[ "api"; "event"; "http"; "rpc"; "web" ]} : gset string))
    by (intros k; by rewrite <- elem_of_dom, dom_DefaultHandlers).
  split; [exact HdR|]. split; [exact HdRs|]. split; [exact HdH|].
  intros ctx p.
  destruct DefaultCmd_registries as (ER & ERs & EH & _).
  split.
  - intros Hbad.
    destruct (Before_cases DefaultCmd ctx p) as [[msg E]|(fR & fH & fRs & HR & HH & HRs)].
    + exists msg. by rewrite E.
    + exfalso. rewrite ER in HR. rewrite EH in HH. rewrite ERs in HRs.
      destruct Hbad as [[Hne Hout]|[[Hne Hout]|[Hne Hout]]].
      * destruct HR as [[? _]|[_ Hl]]; [done|]. apply Hout, HdR. by eexists.
      * destruct HH as [[? _]|[_ Hl]]; [done|]. apply Hout, HdH. by eexists.
      * destruct HRs as [[? _]|[_ Hl]]; [done|]. apply Hout, HdRs. by eexists.
  - intros HR HH HRs.
    assert (∃ fR, chosen (Routers (opts DefaultCmd)) registry_NewRouter
                    (ctx_String ctx "router") fR) as [fR HfR].
    { apply chosen_resolved. rewrite ER. destruct HR as [?|?]; [by left|right].
      by apply HdR. }
    assert (∃ fH, chosen (Handlers (opts DefaultCmd)) rpc_NewHandler
                    (ctx_String ctx "handler") fH) as [fH HfH].
    { apply chosen_resolved. rewrite EH. destruct HH as [?|?]; [by left|right].
      by apply HdH. }
    assert (∃ fRs, chosen (Resolvers (opts DefaultCmd)) vpath_NewResolver
                     (ctx_String ctx "resolver") fRs) as [fRs HfRs].
    { apply chosen_resolved. rewrite ERs. destruct HRs as [?|?]; [by left|right].
      by apply HdRs. }
    rewrite (Before_resolved DefaultCmd ctx p fR fH fRs HfR HfH HfRs). by eexists.
Qed.

Lemma DefaultCmd_recognized_kinds_witness :
  (∃ msg,
     (Before DefaultCmd (flags [("router", "static"); ("resolver", "dns")])
        (start_process [])).1 = Exit 1%Z
     ∧ trace (Before DefaultCmd (flags [("router", "static"); ("resolver", "dns")])
                (start_process [])).2 = trace (start_process []) ++ [EvFatalf msg])
  ∧ (∃ c',
       (Before DefaultCmd
          (flags [("router", "static"); ("resolver", "host"); ("handler", "web")])
          (start_process [])).1 = Return (None, c')).
Proof.
  split.
  - apply (proj1 (proj2 (proj2 (proj2 (DefaultCmd_recognized_kinds (H := stub))))
                    (flags [("router", "static"); ("resolver", "dns")])
                    (start_process []))).
    right. right. split; [discriminate|]. vm_compute. set_solver.
  - apply (proj2 (proj2 (proj2 (proj2 (DefaultCmd_recognized_kinds (H := stub))))
                    (flags [("router", "static"); ("resolver", "host"); ("handler", "web")])
                    (start_process []))).
    + right. set_solver.
    + right. set_solver.
    + right. set_solver.
Defined.

(** ** The lifecycle: [Action] *)

Section Action.
Context `{GoMicro}.
Implicit Types (c : cmd) (ctx : cli_Context) (p : Process).



End Action.

(** C6. When [Start] returns an error, [Action] returns that same error at
    once: the call of [Start] is the only one it makes (no [signal.Notify],
    no receive, no [Stop]), and no pending signal is consumed. *)
Theorem Action_start_error `{GoMicro} (c : cmd) (ctx : cli_Context) (p : Process)
    (srv srv' : server_Server) (e : error) :
  Server (opts c) = Some srv →
  Server_Start srv = (Some e, srv') →
  Action c ctx p
  = (Return (Some e, set_Server c srv'),
     {| trace := trace p ++ [EvStart (Some e)];
        notified := notified p; signals := signals p |}).
Proof.
  intros Hsrv Hstart. unfold Action. rewrite Hsrv.
  run_proc. rewrite Hstart. reflexivity.
Qed.

Lemma Action_start_error_witness :
  Action unbindable_cmd (flags [])
    (start_process [syscall_SIGTERM; syscall_SIGINT])
  = (Return (Some "listen tcp: address nowhere: missing port in address",
             unbindable_cmd),
     {| trace := [EvStart (Some "listen tcp: address nowhere: missing port in address")];
        notified := []; signals := [syscall_SIGTERM; syscall_SIGINT] |}).
Proof.
  apply (Action_start_error (H := stub) unbindable_cmd (flags [])
           (start_process [syscall_SIGTERM; syscall_SIGINT])
           {| stub_address := "nowhere"; stub_routes := []; stub_listening := false |}
           {| stub_address := "nowhere"; stub_routes := []; stub_listening := false |}
           "listen tcp: address nowhere: missing port in address");
    reflexivity.
Defined.



(** ** Further properties of the CORS middleware *)

Lemma CorsMiddleware_unfold {W : Type} (handler : http_Handler W)
    (w : ResponseWriter) (req : http_Request) (world : W) :
  CorsMiddleware handler w req world
  = if String.eqb (Method req) http_MethodOptions
    then (WriteHeader (cors_writer w) http_StatusOK, world)
    else handler (cors_writer w) req world.
Proof. reflexivity. Qed.

Lemma cors_writer_Header (w : ResponseWriter) :
  Header (cors_writer w)
  = <["Access-Control-Allow-Credentials" := ["true"]]>
      (<["Access-Control-Expose-Headers" :=
           ["Content-Length,Access-Control-Allow-Origin,Access-Control-Allow-Headers,Content-Type"]]>
         (<["Access-Control-Allow-Methods" := ["POST,GET,OPTIONS,DELETE,PUT"]]>
            (<["Access-Control-Allow-Headers" :=
                 ["Content-Type,AccessToken,X-CSRF-Token,Authorization,Token,X-Token,X-User-Id"]]>
               (<["Access-Control-Allow-Origin" := ["*"]]> (Header w))))).
Proof. reflexivity. Qed.

Lemma cors_writer_fields (w : ResponseWriter) :
  wroteHeader (cors_writer w) = wroteHeader w
  ∧ Code (cors_writer w) = Code w ∧ Body (cors_writer w) = Body w.
Proof. done. Qed.

Lemma cors_writer_other_names (w : ResponseWriter) (k : string) :
  k ∉ cors_headers.*1 → Header (cors_writer w) !! k = Header w !! k.
Proof.
  intros Hk. rewrite cors_writer_Header.
  cbn in Hk. rewrite !not_elem_of_cons in Hk.
  destruct Hk as (? & ? & ? & ? & ? & _).
  by rewrite !lookup_insert_ne.
Qed.

Lemma cors_writer_idem (w : ResponseWriter) :
  cors_writer (cors_writer w) = cors_writer w.
Proof.
  assert (EH : Header (cors_writer (cors_writer w)) = Header (cors_writer w)).
  { rewrite (cors_writer_Header (cors_writer w)), cors_writer_Header.
    apply map_eq. intros k.
    rewrite !lookup_insert. repeat case_decide; done. }
  destruct (cors_writer_fields (cors_writer w)) as (E1 & E2 & E3).
  destruct (cors_writer (cors_writer w)), (cors_writer w). cbn in *. congruence.
Qed.

(** X1. Whatever the writer held before, the middleware leaves each of its
    five header names with exactly its fixed value (it replaces, it does not
    append), and touches nothing else: the entries under every other name,
    the body and the status are those of the incoming writer when the
    handler, or the OPTIONS short cut, takes over. *)
Theorem CorsMiddleware_replaces_and_keeps {W : Type} (handler : http_Handler W)
    (w : ResponseWriter) (req : http_Request) (world : W) :
  ∃ w0 : ResponseWriter,
    carries_cors (Header w0)
    ∧ (∀ k, k ∉ cors_headers.*1 → Header w0 !! k = Header w !! k)
    ∧ wroteHeader w0 = wroteHeader w ∧ Code w0 = Code w ∧ Body w0 = Body w
    ∧ CorsMiddleware handler w req world
      = if String.eqb (Method req) http_MethodOptions
        then (WriteHeader w0 http_StatusOK, world)
        else handler w0 req world.
Proof.
  exists (cors_writer w).
  destruct (cors_writer_spec w) as (Hc & _).
  destruct (cors_writer_fields w) as (E1 & E2 & E3).
  split; [exact Hc|]. split; [apply cors_writer_other_names|].
  split; [exact E1|]. split; [exact E2|]. split; [exact E3|].
  apply CorsMiddleware_unfold.
Qed.

(** X2. Wrapping a handler twice is the same as wrapping it once. *)
Theorem CorsMiddleware_twice {W : Type} (handler : http_Handler W)
    (w : ResponseWriter) (req : http_Request) (world : W) :
  CorsMiddleware (CorsMiddleware handler) w req world
  = CorsMiddleware handler w req world.
Proof.
  rewrite (CorsMiddleware_unfold (CorsMiddleware handler)).
  rewrite (CorsMiddleware_unfold handler w).
  destruct (String.eqb (Method req) http_MethodOptions) eqn:E; [reflexivity|].
  rewrite CorsMiddleware_unfold, E. by rewrite cors_writer_idem.
Qed.

(** ** Further properties of [Before] and [newCmd] *)


(** X4. [Before] never uses a server the command already holds: it builds
    a new pipeline and ends the same way, with the same calls, whatever
    [c.opts.Server] was. *)
Theorem Before_ignores_held_server `{GoMicro} (c : cmd) (srv : server_Server)
    (ctx : cli_Context) (p : Process) :
  observable (Before (set_Server c srv) ctx p).1 = observable (Before c ctx p).1
  ∧ (Before (set_Server c srv) ctx p).2 = (Before c ctx p).2.
Proof. apply Before_reads_registry_at_kind; by right. Qed.

(** X5. One unknown kind is reported, the first in the order router,
    handler, resolver: an unknown router kind is the one named whatever the
    other kinds are; an unknown handler kind is named when the router kind
    resolves, whatever the resolver kind is; an unknown resolver kind is
    named only when the other two resolve. *)
Theorem Before_diagnostic_order `{GoMicro} (c : cmd) (ctx : cli_Context) (p : Process) :
  (ctx_String ctx "router" ≠ "" →
   Routers (opts c) !! ctx_String ctx "router" = None →
   Before c ctx p
   = (Exit 1%Z,
      log (EvFatalf ("Router " +:+ ctx_String ctx "router" +:+ " is not found")) p))
  ∧ ((ctx_String ctx "router" = ""
      ∨ is_Some (Routers (opts c) !! ctx_String ctx "router")) →
     ctx_String ctx "handler" ≠ "" →
     Handlers (opts c) !! ctx_String ctx "handler" = None →
     Before c ctx p
     = (Exit 1%Z,
        log (EvFatalf ("Handler " +:+ ctx_String ctx "handler" +:+ " is not found")) p))
  ∧ ((ctx_String ctx "router" = ""
      ∨ is_Some (Routers (opts c) !! ctx_String ctx "router")) →
     (ctx_String ctx "handler" = ""
      ∨ is_Some (Handlers (opts c) !! ctx_String ctx "handler")) →
     ctx_String ctx "resolver" ≠ "" →
     Resolvers (opts c) !! ctx_String ctx "resolver" = None →
     Before c ctx p
     = (Exit 1%Z,
        log (EvFatalf ("Resolver " +:+ ctx_String ctx "resolver" +:+ " is not found")) p)).
Proof.
  split; [|split].
  - apply Before_router_missing.
  - intros HR. apply (chosen_resolved _ registry_NewRouter) in HR as [fR HR].
    by apply (Before_handler_missing c ctx p fR).
  - intros HR HH.
    apply (chosen_resolved _ registry_NewRouter) in HR as [fR HR].
    apply (chosen_resolved _ rpc_NewHandler) in HH as [fH HH].
    by apply (Before_resolver_missing c ctx p fR fH).
Qed.

Lemma Before_diagnostic_order_witness :
  Before DefaultCmd (flags [("router", "r?"); ("handler", "h?"); ("resolver", "s?")])
    (start_process [])
  = (Exit 1%Z, log (EvFatalf "Router r? is not found") (start_process []))
  ∧ Before DefaultCmd (flags [("router", "static"); ("handler", "h?"); ("resolver", "s?")])
      (start_process [])
    = (Exit 1%Z, log (EvFatalf "Handler h? is not found") (start_process []))
  ∧ Before DefaultCmd (flags [("router", "static"); ("resolver", "s?")])
      (start_process [])
    = (Exit 1%Z, log (EvFatalf "Resolver s? is not found") (start_process [])).
Proof.
  split; [|split].
  - apply (proj1 (Before_diagnostic_order (H := stub) DefaultCmd
                    (flags [("router", "r?"); ("handler", "h?"); ("resolver", "s?")])
                    (start_process []))).
    + discriminate.
    + vm_compute. reflexivity.
  - apply (proj1 (proj2 (Before_diagnostic_order (H := stub) DefaultCmd
                    (flags [("router", "static"); ("handler", "h?"); ("resolver", "s?")])
                    (start_process [])))).
    + right. vm_compute. eexists. reflexivity.
    + discriminate.
    + vm_compute. reflexivity.
  - apply (proj2 (proj2 (Before_diagnostic_order (H := stub) DefaultCmd
                    (flags [("router", "static"); ("resolver", "s?")])
                    (start_process [])))).
    + right. vm_compute. eexists. reflexivity.
    + left. reflexivity.
    + discriminate.
    + vm_compute. reflexivity.
Defined.

Lemma resolver_options_handler_tag (ctx : cli_Context) (t : string) :
  resolver_WithHandler t ∈ resolver_options ctx
  ↔ t = ctx_String ctx "handler" ∧ t ≠ "".
Proof.
  unfold resolver_options.
  destruct (decide (ctx_String ctx "namespace" = "")) as [En|En],
           (decide (ctx_String ctx "handler" = "")) as [Eh|Eh]; cbn.
  - rewrite elem_of_nil. split; [done|]. intros [-> ?]. done.
  - rewrite elem_of_cons, elem_of_nil. split.
    + intros [E|[]]. injection E as ->. done.
    + intros [-> _]. by left.
  - rewrite elem_of_cons, elem_of_nil. split.
    + intros [E|[]]. discriminate E.
    + intros [-> ?]. done.
  - rewrite !elem_of_cons, elem_of_nil. split.
    + intros [E|[E|[]]]; [discriminate E|]. injection E as ->. done.
    + intros [-> _]. right. by left.
Qed.

(** X6. The handler tag given to the resolver and the handler built are
    chosen by the same flag, with one asymmetry.  For a non-empty handler
    kind, the resolver gets that kind as its one handler tag and the handler
    is built by the registry entry of that very kind.  For an empty handler
    kind the handler is [rpc.NewHandler]'s, but the resolver gets no handler
    tag at all. *)
Theorem Before_handler_tag `{GoMicro} (c : cmd) (ctx : cli_Context) (p : Process) :
  (ctx_String ctx "router" = ""
   ∨ is_Some (Routers (opts c) !! ctx_String ctx "router")) →
  (ctx_String ctx "handler" = ""
   ∨ is_Some (Handlers (opts c) !! ctx_String ctx "handler")) →
  (ctx_String ctx "resolver" = ""
   ∨ is_Some (Resolvers (opts c) !! ctx_String ctx "resolver")) →
  ∃ ropts rslv rtr hdlr,
    (Before c ctx p).1
    = Return (None,
              set_Server c
                (Server_Handle (httpServer_NewServer (bind_address ctx)) "/"
                   (CorsMiddleware (Handler_ServeHTTP hdlr))))
    ∧ trace (Before c ctx p).2
      = trace p ++
        [EvNewResolver ropts rslv;
         EvNewRouter [router_WithResolver rslv] rtr;
         EvNewHandler [handler_WithRouter rtr] hdlr;
         EvNewServer (bind_address ctx) (httpServer_NewServer (bind_address ctx));
         EvHandle "/"]
    ∧ (ctx_String ctx "handler" = "" →
       hdlr = rpc_NewHandler [handler_WithRouter rtr]
       ∧ ∀ t, resolver_WithHandler t ∉ ropts)
    ∧ (ctx_String ctx "handler" ≠ "" →
       (∀ t, resolver_WithHandler t ∈ ropts ↔ t = ctx_String ctx "handler")
       ∧ ∃ fH, Handlers (opts c) !! ctx_String ctx "handler" = Some fH
               ∧ hdlr = fH [handler_WithRouter rtr]).
Proof.
  intros HR HH HRs.
  apply (chosen_resolved _ registry_NewRouter) in HR as [fR HR].
  apply (chosen_resolved _ rpc_NewHandler) in HH as [fH HH].
  apply (chosen_resolved _ vpath_NewResolver) in HRs as [fRs HRs].
  rewrite (Before_resolved c ctx p fR fH fRs HR HH HRs). cbn [fst snd trace].
  exists (resolver_options ctx). do 3 eexists.
  split; [reflexivity|]. split; [reflexivity|]. split.
  - intros E. split.
    + destruct HH as [[_ ->]|[? _]]; done.
    + intros t Ht. apply resolver_options_handler_tag in Ht as [-> Hne]. done.
  - intros Hne. split.
    + intros t. rewrite resolver_options_handler_tag. split; [by intros [? _]|].
      intros ->. done.
    + destruct HH as [[? _]|[_ Hl]]; [done|]. by exists fH.
Qed.

Lemma Before_handler_tag_witness :
  (∃ ropts rslv rtr hdlr,
     trace (Before DefaultCmd (flags [("handler", "web")]) (start_process [])).2
     = [EvNewResolver ropts rslv;
        EvNewRouter [router_WithResolver rslv] rtr;
        EvNewHandler [handler_WithRouter rtr] hdlr;
        EvNewServer ":8080" (httpServer_NewServer ":8080");
        EvHandle "/"]
     ∧ (∀ t, resolver_WithHandler t ∈ ropts ↔ t = "web")
     ∧ ∃ fH, Handlers (opts DefaultCmd) !! "web" = Some fH
             ∧ hdlr = fH [handler_WithRouter rtr])
  ∧ (∃ ropts rslv rtr hdlr,
       trace (Before DefaultCmd (flags []) (start_process [])).2
       = [EvNewResolver ropts rslv;
          EvNewRouter [router_WithResolver rslv] rtr;
          EvNewHandler [handler_WithRouter rtr] hdlr;
          EvNewServer ":8080" (httpServer_NewServer ":8080");
          EvHandle "/"]
       ∧ hdlr = stubHandler "rpc" [handler_WithRouter rtr]
       ∧ ∀ t, resolver_WithHandler t ∉ ropts).
Proof.
  split.
  - destruct (Before_handler_tag (H := stub) DefaultCmd (flags [("handler", "web")])
                (start_process []))
      as (ropts & rslv & rtr & hdlr & _ & Htr & _ & Hset).
    + left. reflexivity.
    + right. vm_compute. eexists. reflexivity.
    + left. reflexivity.
    + destruct (Hset ltac:(discriminate)) as [Htag HfH].
      exists ropts, rslv, rtr, hdlr. split; [exact Htr|]. split; [exact Htag|exact HfH].
  - destruct (Before_handler_tag (H := stub) DefaultCmd (flags []) (start_process []))
      as (ropts & rslv & rtr & hdlr & _ & Htr & Hempty & _);
      [left; reflexivity ..|].
    destruct (Hempty eq_refl) as [Hh Hno].
    exists ropts, rslv, rtr, hdlr. split; [exact Htr|]. split; [exact Hh|exact Hno].
Defined.

(** X7. The defaults of the flags agree with the default registries and
    with the built-in fallbacks.  In a context where the five flags have
    their [DefaultFlags] values, the default command builds the pipeline of
    [registry.NewRouter], [vpath.NewResolver] and [rpc.NewHandler] on
    [":8080"], the same factories and address as for empty flags; the
    resolver is given the namespace [go.micro] and the handler tag [rpc]. *)
Theorem Before_flag_defaults `{GoMicro} (ctx : cli_Context) (p : Process) :
  Forall (λ f, ctx_String ctx (flag_Name f) = flag_Value f) DefaultFlags →
  Before DefaultCmd ctx p
  = (Return (None,
             set_Server DefaultCmd
               (assembled vpath_NewResolver registry_NewRouter rpc_NewHandler
                  [resolver_WithNamespace (resolver_StaticNamespace "go.micro");
                   resolver_WithHandler "rpc"] ":8080")),
     {| trace := trace p ++
          [EvNewResolver
             [resolver_WithNamespace (resolver_StaticNamespace "go.micro");
              resolver_WithHandler "rpc"]
             (vpath_NewResolver
                [resolver_WithNamespace (resolver_StaticNamespace "go.micro");
                 resolver_WithHandler "rpc"]);
           EvNewRouter
             [router_WithResolver
                (vpath_NewResolver
                   [resolver_WithNamespace (resolver_StaticNamespace "go.micro");
                    resolver_WithHandler "rpc"])]
             (registry_NewRouter
                [router_WithResolver
                   (vpath_NewResolver
                      [resolver_WithNamespace (resolver_StaticNamespace "go.micro");
                       resolver_WithHandler "rpc"])]);
           EvNewHandler
             [handler_WithRouter
                (registry_NewRouter
                   [router_WithResolver
                      (vpath_NewResolver
                         [resolver_WithNamespace (resolver_StaticNamespace "go.micro");
                          resolver_WithHandler "rpc"])])]
             (rpc_NewHandler
                [handler_WithRouter
                   (registry_NewRouter
                      [router_WithResolver
                         (vpath_NewResolver
                            [resolver_WithNamespace (resolver_StaticNamespace "go.micro");
                             resolver_WithHandler "rpc"])])]);
           EvNewServer ":8080" (httpServer_NewServer ":8080");
           EvHandle "/"];
        notified := notified p; signals := signals p |}).
Proof.
  intros Hdef. unfold DefaultFlags in Hdef.
  rewrite !Forall_cons in Hdef. cbn in Hdef.
  destruct Hdef as (Ea & En & Er & Es & Eh & _).
  destruct DefaultCmd_registries as (ER & ERs & EH & _).
  rewrite (Before_resolved DefaultCmd ctx p
             registry_NewRouter rpc_NewHandler vpath_NewResolver).
  - unfold resolver_options, bind_address, assembled. rewrite Ea, En, Eh.
    reflexivity.
  - right. rewrite Er, ER. split; [done|]. apply DefaultRouters_lookup.
  - right. rewrite Eh, EH. split; [done|]. apply DefaultHandlers_lookup.
  - right. rewrite Es, ERs. split; [done|]. apply DefaultResolvers_lookup.
Qed.

Lemma Before_flag_defaults_witness :
  (Before DefaultCmd default_context (start_process [])).1
  = Return (None,
            set_Server DefaultCmd
              (assembled (stubResolver "vpath") (stubRouter "registry") (stubHandler "rpc")
                 [resolver_WithNamespace (resolver_StaticNamespace "go.micro");
                  resolver_WithHandler "rpc"] ":8080")).
Proof.
  rewrite (Before_flag_defaults (H := stub) default_context (start_process [])).
  - reflexivity.
  - repeat constructor.
Defined.

(** X8. Whatever options [newCmd] is given, the app's usage line is the
    description of the options and is never empty (an empty description is
    replaced by the default text), and the app's name, version and flags are
    those of the options and [DefaultFlags]. *)
Theorem newCmd_usage_never_empty `{GoMicro} (os : list Option) :
  app_Usage (app (newCmd os)) = Description (opts (newCmd os))
  ∧ app_Usage (app (newCmd os)) ≠ ""
  ∧ app_Name (app (newCmd os)) = Name (opts (newCmd os))
  ∧ app_Version (app (newCmd os)) = Version (opts (newCmd os))
  ∧ app_Flags (app (newCmd os)) = DefaultFlags
  ∧ app_Usage (app (newCmd os))
    = (let given :=
         Description
           (fold_left (λ o f, f o) os
              {| Name := ""; Description := ""; Version := ""; Server := None;
                 Routers := DefaultRouters; Resolvers := DefaultResolvers;
                 Handlers := DefaultHandlers |}) in
       if decide (given = "") then "a go-micro-api service" else given).
Proof.
  unfold newCmd. cbn zeta.
  match goal with
  | |- context [fold_left ?f os ?i] => generalize (fold_left f os i)
  end.
  intros o. destruct (Description o) as [|a d] eqn:E; cbn; rewrite ?E; cbn;
    repeat split; done.
Qed.

(** ** Further properties of [Action] *)



(** [Action] on a command that holds a server, by the results of [Start]
    and [Stop] and the signals to come. *)
Lemma Action_eq `{GoMicro} (c : cmd) (ctx : cli_Context) (p : Process)
    (srv : server_Server) :
  Server (opts c) = Some srv →
  Action c ctx p
  = match (Server_Start srv).1 with
    | Some e =>
        (Return (Some e, set_Server c (Server_Start srv).2),
         {| trace := trace p ++ [EvStart (Some e)];
            notified := notified p; signals := signals p |})
    | None =>
        match relayed [syscall_SIGINT; syscall_SIGTERM] (signals p) with
        | None =>
            (Blocked,
             {| trace := trace p ++
                         [EvStart None; EvNotify [syscall_SIGINT; syscall_SIGTERM]];
                notified := [syscall_SIGINT; syscall_SIGTERM]; signals := [] |})
        | Some (s, rest) =>
            (Return ((Server_Stop (Server_Start srv).2).1,
                     set_Server c (Server_Stop (Server_Start srv).2).2),
             {| trace := trace p ++
                         [EvStart None; EvNotify [syscall_SIGINT; syscall_SIGTERM];
                          EvRecv s; EvStop (Server_Stop (Server_Start srv).2).1];
                notified := [syscall_SIGINT; syscall_SIGTERM]; signals := rest |})
        end
    end.
Proof.
  intros Hsrv. unfold Action. rewrite Hsrv. run_proc.
  destruct (Server_Start srv) as [[e|] s1]; cbn; [reflexivity|].
  destruct (relayed _ (signals p)) as [[s rest]|]; cbn.
  - destruct (Server_Stop s1) as [[e2|] s2]; cbn; rewrite <- !app_assoc; reflexivity.
  - rewrite <- !app_assoc. reflexivity.
Qed.



(** ** The callers: [App.Run], [Run] and [Init] *)

(** A run of the app ends on the fatal log of [Before], or goes on with
    [Action] on the command holding the server [Before] assembled. *)
Lemma App_Run_cases `{GoMicro} (c : cmd) (ctx : cli_Context) (p : Process) :
  (∃ msg, App_Run c ctx p = (Exit 1%Z, log (EvFatalf msg) p))
  ∨ (∃ fRs fR fH,
       let ropts := resolver_options ctx in
       let srv := assembled fRs fR fH ropts (bind_address ctx) in
       App_Run c ctx p
       = Action (set_Server c srv) ctx
           {| trace := trace p ++
                [EvNewResolver ropts (fRs ropts);
                 EvNewRouter [router_WithResolver (fRs ropts)]
                   (fR [router_WithResolver (fRs ropts)]);
                 EvNewHandler [handler_WithRouter (fR [router_WithResolver (fRs ropts)])]
                   (fH [handler_WithRouter (fR [router_WithResolver (fRs ropts)])]);
                 EvNewServer (bind_address ctx) (httpServer_NewServer (bind_address ctx));
                 EvHandle "/"];
              notified := notified p; signals := signals p |}).
Proof.
  unfold App_Run.
  destruct (Before_cases c ctx p) as [[msg E]|(fR & fH & fRs & HR & HH & HRs)].
  - left. exists msg. unfold mbind, Proc_bind. by rewrite E.
  - right. exists fRs, fR, fH. cbn zeta. unfold mbind, Proc_bind.
    by rewrite (Before_resolved c ctx p fR fH fRs HR HH HRs).
Qed.

(** X11. In a run of the app, [Action] always finds the server that
    [Before] stored in the command: the run never panics, and unless it
    ends on the fatal log of [Before] its sixth call is [Start], on the
    server made by [NewServer] on the flag's address with the handler
    behind the CORS middleware registered at the root pattern. *)
Theorem App_Run_starts_assembled_server `{GoMicro}
    (c : cmd) (ctx : cli_Context) (p : Process) :
  (∀ msg, (App_Run c ctx p).1 ≠ Panic msg)
  ∧ ((∃ msg, App_Run c ctx p = (Exit 1%Z, log (EvFatalf msg) p))
     ∨ (∃ rslv rtr hdlr rest,
          let srv := Server_Handle (httpServer_NewServer (bind_address ctx)) "/"
                       (CorsMiddleware (Handler_ServeHTTP hdlr)) in
          trace (App_Run c ctx p).2
          = trace p ++
            [EvNewResolver (resolver_options ctx) rslv;
             EvNewRouter [router_WithResolver rslv] rtr;
             EvNewHandler [handler_WithRouter rtr] hdlr;
             EvNewServer (bind_address ctx) (httpServer_NewServer (bind_address ctx));
             EvHandle "/";
             EvStart (Server_Start srv).1] ++ rest)).
Proof.
  destruct (App_Run_cases c ctx p) as [[msg E]|(fRs & fR & fH & E)].
  - rewrite E. split; [done|]. left. by exists msg.
  - cbn zeta in E. rewrite E.
    rewrite (Action_eq _ ctx _ (assembled fRs fR fH (resolver_options ctx) (bind_address ctx)))
      by reflexivity.
    split.
    + intros msg. destruct (Server_Start _).1; [done|].
      destruct (relayed _ _) as [[s rest]|]; done.
    + right.
      exists (fRs (resolver_options ctx)),
             (fR [router_WithResolver (fRs (resolver_options ctx))]),
             (fH [handler_WithRouter (fR [router_WithResolver (fRs (resolver_options ctx))])]).
      unfold assembled. cbn zeta.
      destruct (Server_Start _).1 as [e|]; cbn [snd trace].
      * exists []. rewrite <- app_assoc. reflexivity.
      * destruct (relayed _ _) as [[s rest]|]; cbn [snd trace];
          eexists; rewrite <- app_assoc; reflexivity.
Qed.







